(** * registration_api: the credential store, the token flow and the guards

    A shallow embedding of [src/oauth.py].  The MongoDB collection is a list
    of documents threaded through the handlers, the wall clock is an explicit
    argument, exceptions are a [result] monad, and the two collaborators that
    are not part of the file ([utils.pwd_context] and the [jose] library) are
    interfaces. *)

From Stdlib Require Import ZArith Lia Ascii.
From stdpp Require Import base option strings list gmap countable.

Local Open Scope string_scope.
Local Open Scope list_scope.
Local Open Scope Z_scope.

(** ** Pydantic models (lines 13-30) *)

Record Token := { access_token : string; token_type : string }.

Record UserCreate := { UserCreate_email : string; password : string }.

(** A stored document.  MongoDB adds an [_id] to every inserted document; the
    service never reads it, so a document is the three fields of [UserInDB]. *)
Record UserInDB := { email : string; hashed_password : string; disabled : bool }.

(** ** Python values

    [get_user] returns either a document or the constant [False], and
    [find_one] returns either a document or [None]; the callers tell these
    apart with truthiness tests, [is None] and subscripting, so the three
    shapes stay distinct here. *)
Inductive pyobj :=
  | Py_None
  | Py_False
  | Py_dict (doc : UserInDB).

(** [if v:] -- a document fetched from the store is a non-empty dict. *)
Definition truthy (v : pyobj) : bool :=
  match v with
  | Py_dict _ => true
  | Py_None | Py_False => false
  end.

(** [v is None] *)
Definition is_None (v : pyobj) : bool :=
  match v with
  | Py_None => true
  | Py_False | Py_dict _ => false
  end.

(** JSON bodies of the responses. *)
#[local] Unset Elimination Schemes.
Inductive json :=
  | JStr (s : string)
  | JObj (fields : list (string * json))
  | JArr (items : list json).
#[local] Set Elimination Schemes.

(** ** Exceptions *)

Record HTTPException := {
  status_code : Z;
  detail : string;
  headers : option (list (string * string))
}.

Inductive exn :=
  | HTTP (e : HTTPException)
  | TypeError (msg : string)
  | ValidationError
  | OverflowError.

Inductive result (A : Type) :=
  | Return (a : A)
  | Raise (e : exn).
Arguments Return {A} a.
Arguments Raise {A} e.

#[global] Instance result_ret : MRet result := @Return.
#[global] Instance result_bind : MBind result := fun A B f m =>
  match m with
  | Return a => f a
  | Raise e => Raise e
  end.

#[global] Instance result_fmap : FMap result := fun A B f m =>
  match m with
  | Return a => Return (f a)
  | Raise e => Raise e
  end.

(** The status line FastAPI sends: an [HTTPException] carries its own code, any
    other exception that escapes a handler is a 500. *)
Definition response_status {A} (r : result A) : Z :=
  match r with
  | Return _ => 200
  | Raise (HTTP e) => status_code e
  | Raise _ => 500
  end.

(** [v['field']] on a value that may not be a document. *)
Definition getitem {A} (v : pyobj) (field : UserInDB -> A) : result A :=
  match v with
  | Py_dict doc => Return (field doc)
  | Py_False => Raise (TypeError "'bool' object is not subscriptable")
  | Py_None => Raise (TypeError "'NoneType' object is not subscriptable")
  end.

(** ** Time

    A [datetime] is a count of microseconds since the epoch (UTC) and a
    [timedelta] a count of microseconds.  [timedelta_minutes] is the count;
    the range check of the constructor is in [timedelta] below. *)
Definition timedelta_minutes (minutes : Z) : Z := minutes * 60000000.

(** [timegm(t.utctimetuple())]: whole seconds, microseconds dropped. *)
Definition timegm (t : Z) : Z := t `div` 1000000.

(** A [timedelta] holds at most 999999999 days in either direction. *)
Definition timedelta_ok (delta : Z) : bool :=
  (-999999999 <=? delta `div` 86400000000) && (delta `div` 86400000000 <=? 999999999).

(** A [datetime] is a moment of the years 1 to 9999. *)
Definition datetime_ok (t : Z) : bool :=
  (-62135596800000000 <=? t) && (t <=? 253402300799999999).

(** [timedelta(minutes=m)] as a call: [OverflowError] when the value does not
    fit, else the count of [timedelta_minutes]. *)
Definition timedelta (minutes : Z) : result Z :=
  if timedelta_ok (timedelta_minutes minutes) then Return (timedelta_minutes minutes)
  else Raise OverflowError.

(** ** The credential store (motor collection) *)

Abbreviation collection := (list UserInDB).

(** [users_collection.find_one({"email": e})]: the first matching document. *)
Fixpoint find_one (e : string) (c : collection) : pyobj :=
  match c with
  | [] => Py_None
  | doc :: c' => if decide (email doc = e) then Py_dict doc else find_one e c'
  end.

(** [users_collection.insert_one(doc)] *)
Definition insert_one (doc : UserInDB) (c : collection) : collection := c ++ [doc].

(** ** Collaborators *)

(** [utils.pwd_context].  Hashing is salted, so the hash depends on the
    entropy [salt] drawn by the call. *)
Class PwdContext := {
  salt : Type;
  get_password_hash : salt -> string -> string;
  verify_password : string -> string -> bool
}.

(** [config.env_config] *)
Class env_config := {
  SECRET_KEY : string;
  ALGORITHM : string;
  ACCESS_TOKEN_EXPIRE_MINUTES : Z
}.

(** Claim values: JSON strings and integers, and the [datetime] objects a
    caller may hand to [jwt.encode]. *)
Inductive claim :=
  | VStr (s : string)
  | VInt (n : Z)
  | VDatetime (t : Z).

(** [jose.jws]: compact serialisation and signature.  [jws_verify] gives the
    payload mapping, or [None] when the library raises [JWSError] or the
    payload is not a JSON object. *)
Class Jws := {
  jws_sign : gmap string claim -> string -> string -> string;
  jws_verify : string -> string -> list string -> option (gmap string claim)
}.

(** A payload that serialises to JSON holds no [datetime]. *)
Definition json_claims (c : gmap string claim) : Prop :=
  forall k t, c !! k <> Some (VDatetime t).

(** What the service relies on: with the configured secret and algorithm, a
    signed payload verifies to itself. *)
Class JwsCorrect `{Jws} (key alg : string) : Prop :=
  jws_verify_sign : forall c, json_claims c ->
    jws_verify (jws_sign c key alg) key [alg] = Some c.

Inductive JWTError :=
  | JWTError_invalid
  | ExpiredSignatureError
  | JWTClaimsError.

(** ** [jose.jwt] *)

(** [jwt.encode] turns a [datetime] under a time claim into seconds. *)
Definition to_intdate (time_claim : string) (c : gmap string claim) : gmap string claim :=
  match c !! time_claim with
  | Some (VDatetime t) => <[time_claim := VInt (timegm t)]> c
  | _ => c
  end.

Definition jwt_intdates (c : gmap string claim) : gmap string claim :=
  to_intdate "nbf" (to_intdate "iat" (to_intdate "exp" c)).

Definition jwt_encode `{Jws} (c : gmap string claim) (key alg : string) : string :=
  jws_sign (jwt_intdates c) key alg.

(** The registered-claim checks of [jwt.decode] with its default options, no
    audience, issuer, subject or access token given, and no leeway. *)
Definition validate_iat (c : gmap string claim) : option JWTError :=
  match c !! "iat" with
  | None | Some (VInt _) => None
  | Some _ => Some JWTClaimsError
  end.

Definition validate_nbf (c : gmap string claim) (now : Z) : option JWTError :=
  match c !! "nbf" with
  | None => None
  | Some (VInt nbf) => if now <? nbf then Some JWTClaimsError else None
  | Some _ => Some JWTClaimsError
  end.

Definition validate_exp (c : gmap string claim) (now : Z) : option JWTError :=
  match c !! "exp" with
  | None => None
  | Some (VInt exp) => if exp <? now then Some ExpiredSignatureError else None
  | Some _ => Some JWTClaimsError
  end.

Definition validate_aud (c : gmap string claim) : option JWTError :=
  match c !! "aud" with
  | None => None
  | Some _ => Some JWTClaimsError
  end.

Definition validate_sub (c : gmap string claim) : option JWTError :=
  match c !! "sub" with
  | None | Some (VStr _) => None
  | Some _ => Some JWTClaimsError
  end.

Definition validate_jti (c : gmap string claim) : option JWTError :=
  match c !! "jti" with
  | None | Some (VStr _) => None
  | Some _ => Some JWTClaimsError
  end.

Definition validate_at_hash (c : gmap string claim) : option JWTError :=
  match c !! "at_hash" with
  | None => None
  | Some _ => Some JWTClaimsError
  end.

(** The first check that fails decides the error. *)
Fixpoint first_error (checks : list (option JWTError)) : option JWTError :=
  match checks with
  | [] => None
  | Some e :: _ => Some e
  | None :: checks' => first_error checks'
  end.

Definition validate_claims (c : gmap string claim) (now : Z) : option JWTError :=
  first_error [validate_iat c; validate_nbf c now; validate_exp c now;
               validate_aud c; validate_sub c; validate_jti c; validate_at_hash c].

(** [jwt.decode(token, key, algorithms)], read at [now] whole seconds. *)
Definition jwt_decode `{Jws} (token key : string) (algorithms : list string) (now : Z)
  : JWTError + gmap string claim :=
  match jws_verify token key algorithms with
  | None => inl JWTError_invalid
  | Some c =>
      match validate_claims c now with
      | Some e => inl e
      | None => inr c
      end
  end.

(** ** The service (lines 38-164) *)

Section Service.
Context `{!PwdContext, !Jws, !env_config}.

(** Lines 38-44.  The global [db] handle is the explicit [db] argument. *)
Definition get_user (db : collection) (email : string) : pyobj :=
  let existing_user := find_one email db in
  if truthy existing_user then existing_user else Py_False.

(** Lines 48-57.  Returns the response together with the store it leaves. *)
Definition create_user (s : salt) (db : collection) (user : UserCreate)
  : result json * collection :=
  let existing_user := get_user db (UserCreate_email user) in
  if truthy existing_user then
    (Raise (HTTP {| status_code := 400; detail := "E-mail already exists";
                    headers := None |}), db)
  else
    let hashed_password := get_password_hash s (password user) in
    let new_user := {| email := UserCreate_email user; disabled := false;
                       hashed_password := hashed_password |} in
    (Return (JObj [("detail", JStr "Registration successful")]),
     insert_one new_user db).

(** Lines 60-67. *)
Definition authenticate_user (db : collection) (email password : string)
  : result pyobj :=
  let user := get_user db email in
  if negb (truthy user) then Return Py_False else
  h ← getitem user hashed_password;
  if negb (verify_password password h) then Return Py_False else
  Return user.

(** Lines 72-75.  [if expires_delta:] is a truthiness test, which a zero
    [timedelta] fails like [None].  This is the sum as a number; whether it is
    a [datetime] is decided by [datetime_ok] in [create_access_token_result]. *)
Definition expire (now : Z) (expires_delta : option Z) : Z :=
  match expires_delta with
  | Some delta => if decide (delta = 0) then now + timedelta_minutes 15
                  else now + delta
  | None => now + timedelta_minutes 15
  end.

(** Lines 71-76: the claim set handed to [jwt.encode], as a mapping.  The
    order of the keys of the Python dict, which the serialised token follows,
    is not part of it. *)
Definition to_encode (now : Z) (data : gmap string claim) (expires_delta : option Z)
  : gmap string claim :=
  <["exp" := VDatetime (expire now expires_delta)]> data.

(** Lines 70-78: the token the call returns when it returns. *)
Definition create_access_token (now : Z) (data : gmap string claim)
    (expires_delta : option Z) : string :=
  jwt_encode (to_encode now data expires_delta) SECRET_KEY ALGORITHM.

(** Lines 70-78 as a call: the sum at line 73 or 75 raises [OverflowError]
    when it leaves the years 1 to 9999, before anything is encoded. *)
Definition create_access_token_result (now : Z) (data : gmap string claim)
    (expires_delta : option Z) : result string :=
  if datetime_ok (expire now expires_delta)
  then Return (create_access_token now data expires_delta)
  else Raise OverflowError.

(** Lines 82-86. *)
Definition credentials_exception : HTTPException :=
  {| status_code := 401; detail := "Could not validate credentials";
     headers := Some [("WWW-Authenticate", "Bearer")] |}.

(** Lines 87-94, the token check of [get_current_user]: the result is
    [token_data.email].  A subject that is not a string does not pass
    [TokenData]; [jwt.decode] never returns one (see [jwt_decode_sub]). *)
Definition verify_token (now : Z) (token : string) : result string :=
  match jwt_decode token SECRET_KEY [ALGORITHM] (timegm now) with
  | inl _ => Raise (HTTP credentials_exception)
  | inr payload =>
      match payload !! "sub" with
      | None => Raise (HTTP credentials_exception)
      | Some (VStr email) => Return email
      | Some _ => Raise ValidationError
      end
  end.

(** Lines 81-98. *)
Definition get_current_user (db : collection) (now : Z) (token : string)
  : result pyobj :=
  email ← verify_token now token;
  let user := get_user db email in
  if is_None user then Raise (HTTP credentials_exception) else
  Return user.

(** Lines 101-106. *)
Definition get_current_active_user (current_user : pyobj) : result pyobj :=
  d ← getitem current_user disabled;
  if (d : bool) then
    Raise (HTTP {| status_code := 400; detail := "Inactive user"; headers := None |})
  else Return current_user.

(** Lines 121-123. *)
Definition health_check : result json :=
  Return (JObj [("App status", JStr "OK")]).

(** Lines 126-134. *)
Definition check_email (db : collection) (email : string) : result json :=
  let existing_user := find_one email db in
  if truthy existing_user then
    Raise (HTTP {| status_code := 400; detail := "E-mail already exists";
                   headers := None |})
  else Return (JObj [("detail", JStr "E-mail is available")]).

(** Lines 137-139. *)
Definition register (s : salt) (db : collection) (user : UserCreate)
  : result json * collection :=
  create_user s db user.

(** Lines 142-157. *)
Definition login_for_access_token (db : collection) (now : Z)
    (username password : string) : result Token :=
  user ← authenticate_user db username password;
  if negb (truthy user) then
    Raise (HTTP {| status_code := 401; detail := "Incorrect username or password";
                   headers := Some [("WWW-Authenticate", "Bearer")] |})
  else
    access_token_expires ← timedelta ACCESS_TOKEN_EXPIRE_MINUTES;
    sub ← getitem user email;
    access_token ←
      create_access_token_result now {["sub" := VStr sub]} (Some access_token_expires);
    Return {| access_token := access_token; token_type := "bearer" |}.

(** Lines 160-164, the handler body. *)
Definition read_own_info (current_user : pyobj) : result json :=
  owner ← getitem current_user email;
  Return (JArr [JObj [("owner", JStr owner)]]).

(** [GET /users/me] with its dependency chain resolved. *)
Definition users_me (db : collection) (now : Z) (token : string) : result json :=
  user ← get_current_user db now token;
  current_user ← get_current_active_user user;
  read_own_info current_user.

(** *** Requests, served one after the other *)

Inductive request :=
  | GET_root
  | GET_email (email : string)
  | POST_register (s : salt) (user : UserCreate)
  | POST_token (username password : string)
  | GET_users_me (token : string).

Definition Token_json (t : Token) : json :=
  JObj [("access_token", JStr (access_token t)); ("token_type", JStr (token_type t))].

Definition serve (now : Z) (req : request) (db : collection)
  : result json * collection :=
  match req with
  | GET_root => (health_check, db)
  | GET_email e => (check_email db e, db)
  | POST_register s user => register s db user
  | POST_token u p => (Token_json <$> login_for_access_token db now u p, db)
  | GET_users_me token => (users_me db now token, db)
  end.

(** The store after a sequence of timed requests. *)
Fixpoint run (reqs : list (Z * request)) (db : collection) : collection :=
  match reqs with
  | [] => db
  | (now, req) :: reqs' => run reqs' (serve now req db).2
  end.

(** *** Observations used to state the properties *)

(** The expiry computed by the login route at [now] fits: the configured
    minutes make a [timedelta] and the sum is a [datetime]. *)
Definition login_expiry_ok (now : Z) : bool :=
  timedelta_ok (timedelta_minutes ACCESS_TOKEN_EXPIRE_MINUTES) &&
  datetime_ok (expire now (Some (timedelta_minutes ACCESS_TOKEN_EXPIRE_MINUTES))).

(** The expiry a token carries, read back with the server secret. *)
Definition token_expiry (token : string) : option Z :=
  payload ← jws_verify token SECRET_KEY [ALGORITHM];
  match payload !! "exp" with
  | Some (VInt exp) => Some exp
  | _ => None
  end.

End Service.

(** No two stored documents share an email. *)
Definition unique_emails (db : collection) : Prop := NoDup (email <$> db).

(** The number of documents stored under an email. *)
Definition records_for (e : string) (db : collection) : nat :=
  length (filter (fun doc => email doc = e) db).

(** ** Reference collaborators

    Small executable instances of the two interfaces, used to run the service
    on concrete requests. *)

(** A password context without entropy: the hash is the tagged password. *)
Definition tagged_pwd_context : PwdContext :=
  {| salt := unit;
     get_password_hash := fun _ pw => "h$" +:+ pw;
     verify_password := fun plain hashed => bool_decide (hashed = "h$" +:+ plain) |}.

#[global] Instance claim_eq_dec : EqDecision claim.
Proof. solve_decision. Defined.

Definition claim_to_sum (v : claim) : string + (Z + Z) :=
  match v with
  | VStr s => inl s
  | VInt n => inr (inl n)
  | VDatetime t => inr (inr t)
  end.

Definition claim_of_sum (x : string + (Z + Z)) : claim :=
  match x with
  | inl s => VStr s
  | inr (inl n) => VInt n
  | inr (inr t) => VDatetime t
  end.

#[global] Instance claim_countable : Countable claim :=
  inj_countable' claim_to_sum claim_of_sum
    (fun v => match v with VStr _ | VInt _ | VDatetime _ => eq_refl end).

(** A positive number written in binary, least significant digit first. *)
Fixpoint pos_to_bits (p : positive) : string :=
  match p with
  | xH => ""
  | xO p' => String "0"%char (pos_to_bits p')
  | xI p' => String "1"%char (pos_to_bits p')
  end.

Fixpoint bits_to_pos (s : string) : option positive :=
  match s with
  | EmptyString => Some xH
  | String a s' =>
      if decide (a = "0"%char) then xO <$> bits_to_pos s'
      else if decide (a = "1"%char) then xI <$> bits_to_pos s'
      else None
  end.

(** An unkeyed serialisation: the token spells out payload, key and algorithm,
    and verification compares them. *)
Definition plain_jws : Jws :=
  {| jws_sign := fun c key alg => pos_to_bits (encode (c, key, alg));
     jws_verify := fun token key algorithms =>
       p ← bits_to_pos token;
       x ← decode (A := gmap string claim * string * string) p;
       if decide (x.1.2 = key ∧ x.2 ∈ algorithms) then Some x.1.1 else None |}.

Definition test_config (minutes : Z) : env_config :=
  {| SECRET_KEY := "secret"; ALGORITHM := "HS256";
     ACCESS_TOKEN_EXPIRE_MINUTES := minutes |}.

(** ** The error taxonomy

    Names for the exceptions the handlers build inline. *)

(** Lines 52 and 132. *)
Definition DuplicateEmail : HTTPException :=
  {| status_code := 400; detail := "E-mail already exists"; headers := None |}.

(** Lines 148-152. *)
Definition InvalidCredentials : HTTPException :=
  {| status_code := 401; detail := "Incorrect username or password";
     headers := Some [("WWW-Authenticate", "Bearer")] |}.

(** Line 105. *)
Definition InactiveUser : HTTPException :=
  {| status_code := 400; detail := "Inactive user"; headers := None |}.

(** Sample data for the examples. *)
Definition alice : UserInDB :=
  {| email := "a@x.com"; hashed_password := "h$pw1"; disabled := false |}.

Definition mallory : UserInDB :=
  {| email := "m@x.com"; hashed_password := "h$pw3"; disabled := true |}.


(** The record [create_user] builds at line 55. *)
Definition new_user `{PwdContext} (s : salt) (user : UserCreate) : UserInDB :=
  {| email := UserCreate_email user;
     hashed_password := get_password_hash s (password user);
     disabled := false |}.

(** * Properties *)

(** ** The store *)

Section StoreFacts.
Implicit Types (db : collection) (doc : UserInDB) (e : string).

Lemma find_one_not_False e db : find_one e db <> Py_False.
Proof. induction db as [|doc db IH]; simpl; [done|]. by case_decide. Qed.

Lemma find_one_dict e db doc :
  find_one e db = Py_dict doc -> doc ∈ db /\ email doc = e.
Proof.
  induction db as [|d db IH]; simpl; [done|].
  case_decide as Hd.
  - intros [= ->]. split; [left | done].
  - intros Hf. destruct (IH Hf). split; [by right | done].
Qed.

Lemma find_one_None e db :
  find_one e db = Py_None <-> forall doc, doc ∈ db -> email doc <> e.
Proof.
  induction db as [|d db IH]; simpl.
  - split; [|done]. intros _ doc Hin. by apply elem_of_nil in Hin.
  - case_decide as Hd.
    + split; [done|]. intros Hall. destruct (Hall d); [left | done].
    + rewrite IH. split.
      * intros Hall doc [->|Hin]%elem_of_cons; [done | by apply Hall].
      * intros Hall doc Hin. apply Hall. by right.
Qed.

Lemma find_one_exists e db :
  (exists doc, doc ∈ db /\ email doc = e) -> exists doc, find_one e db = Py_dict doc.
Proof.
  intros (doc & Hin & He).
  destruct (find_one e db) as [| |d] eqn:Hf; [| |by exists d].
  - destruct (proj1 (find_one_None e db) Hf doc Hin He).
  - by destruct (find_one_not_False e db).
Qed.

Lemma find_one_unique e db doc :
  unique_emails db -> doc ∈ db -> email doc = e -> find_one e db = Py_dict doc.
Proof.
  unfold unique_emails. induction db as [|d db IH]; simpl.
  - intros _ Hin. by apply elem_of_nil in Hin.
  - intros [Hd Hnd]%list.NoDup_cons Hin He. case_decide as Hde.
    + apply elem_of_cons in Hin as [->|Hin]; [done|].
      destruct Hd. rewrite Hde, <- He. by apply list_elem_of_fmap_2.
    + apply elem_of_cons in Hin as [->|Hin]; [done|]. by apply IH.
Qed.

Lemma unique_emails_insert_one doc db :
  unique_emails db -> find_one (email doc) db = Py_None ->
  unique_emails (insert_one doc db).
Proof.
  unfold unique_emails, insert_one. intros Hnd Hf.
  rewrite fmap_app. apply list.NoDup_app. split; [done|]. split.
  - intros e (d & He & Hin)%list_elem_of_fmap [Hd|Hnil]%elem_of_cons.
    + destruct (proj1 (find_one_None _ db) Hf d Hin). congruence.
    + by apply elem_of_nil in Hnil.
  - simpl. apply NoDup_singleton.
Qed.

Lemma records_for_absent e db : e ∉ email <$> db -> records_for e db = 0%nat.
Proof.
  unfold records_for. induction db as [|d db IH]; [done|].
  rewrite fmap_cons, not_elem_of_cons, filter_cons. intros [Hne Hin].
  case_decide; [done | by apply IH].
Qed.

Lemma records_for_unique e db : unique_emails db -> (records_for e db <= 1)%nat.
Proof.
  unfold unique_emails. induction db as [|d db IH]; [unfold records_for; simpl; lia|].
  rewrite fmap_cons. intros [Hd Hnd]%list.NoDup_cons.
  unfold records_for. rewrite filter_cons. case_decide as Hde.
  - simpl. fold (records_for e db). rewrite records_for_absent; [lia|].
    by rewrite <- Hde.
  - by apply IH.
Qed.
End StoreFacts.

Section ServiceFacts.
Context `{!PwdContext, !Jws, !env_config}.
Implicit Types (db : collection) (doc : UserInDB).

Lemma get_user_dict db e doc :
  get_user db e = Py_dict doc <-> find_one e db = Py_dict doc.
Proof. unfold get_user. by destruct (find_one e db). Qed.

Lemma get_user_False db e :
  get_user db e = Py_False <-> forall doc, doc ∈ db -> email doc <> e.
Proof.
  rewrite <- find_one_None. unfold get_user.
  pose proof (find_one_not_False e db). by destruct (find_one e db).
Qed.

Lemma get_user_not_None db e : get_user db e <> Py_None.
Proof. unfold get_user. by destruct (find_one e db). Qed.

Lemma create_user_taken s db user doc :
  find_one (UserCreate_email user) db = Py_dict doc ->
  create_user s db user =
    (Raise (HTTP {| status_code := 400; detail := "E-mail already exists";
                    headers := None |}), db).
Proof. intros Hf. unfold create_user, get_user. by rewrite Hf. Qed.

Lemma create_user_free s db user :
  find_one (UserCreate_email user) db = Py_None ->
  create_user s db user =
    (Return (JObj [("detail", JStr "Registration successful")]),
     db ++ [{| email := UserCreate_email user;
               hashed_password := get_password_hash s (password user);
               disabled := false |}]).
Proof. intros Hf. unfold create_user, get_user. by rewrite Hf. Qed.

Lemma find_one_insert_one e db doc :
  email doc = e -> exists doc', find_one e (insert_one doc db) = Py_dict doc'.
Proof.
  intros He. apply find_one_exists. exists doc. split; [|done].
  unfold insert_one. apply elem_of_app. right. left.
Qed.

Lemma serve_store now req db :
  (serve now req db).2 = db \/
  exists s user, req = POST_register s user /\
    find_one (UserCreate_email user) db = Py_None /\
    (serve now req db).2 =
      insert_one {| email := UserCreate_email user;
                    hashed_password := get_password_hash s (password user);
                    disabled := false |} db.
Proof.
  destruct req as [|e|s user|u p|token]; simpl; try by left.
  unfold register.
  destruct (find_one (UserCreate_email user) db) as [| |doc] eqn:Hf.
  - right. exists s, user. by rewrite (create_user_free _ _ _ Hf).
  - by destruct (find_one_not_False (UserCreate_email user) db).
  - left. by rewrite (create_user_taken _ _ _ _ Hf).
Qed.

Lemma serve_unique now req db :
  unique_emails db -> unique_emails (serve now req db).2.
Proof.
  intros Hu. destruct (serve_store now req db) as [->|(s & user & _ & Hf & ->)];
    [done|]. by apply unique_emails_insert_one.
Qed.
End ServiceFacts.

(** ** Tokens *)

Section ClaimFacts.
Implicit Types (c data : gmap string claim).

Lemma json_claims_insert_int data k n :
  json_claims data -> json_claims (<[k := VInt n]> data).
Proof.
  intros Hd k' t. destruct (decide (k = k')) as [->|Hne].
  - by rewrite lookup_insert_eq.
  - by rewrite lookup_insert_ne.
Qed.

Lemma json_claims_sub e : json_claims {["sub" := VStr e]}.
Proof.
  intros k t. destruct (decide ("sub" = k)) as [<-|Hne].
  - by rewrite lookup_singleton_eq.
  - by rewrite lookup_singleton_ne.
Qed.

Lemma json_claims_empty : json_claims ∅.
Proof. intros k t. by rewrite lookup_empty. Qed.

Lemma to_intdate_json tc c : json_claims c -> to_intdate tc c = c.
Proof.
  intros Hc. unfold to_intdate. specialize (Hc tc).
  destruct (c !! tc) as [[s|n|t]|]; try done. by destruct (Hc t).
Qed.

Lemma jwt_intdates_json c : json_claims c -> jwt_intdates c = c.
Proof.
  intros Hc. unfold jwt_intdates.
  by rewrite (to_intdate_json "exp"), (to_intdate_json "iat"), (to_intdate_json "nbf").
Qed.

(** Of the claim set built by [create_access_token], [jwt.encode] rewrites
    the expiry and nothing else. *)
Lemma jwt_intdates_exp data t :
  json_claims data ->
  jwt_intdates (<["exp" := VDatetime t]> data) = <["exp" := VInt (timegm t)]> data.
Proof.
  intros Hd. unfold jwt_intdates.
  assert (to_intdate "exp" (<["exp" := VDatetime t]> data)
          = <["exp" := VInt (timegm t)]> data) as ->.
  { unfold to_intdate. by rewrite lookup_insert_eq, insert_insert_eq. }
  pose proof (json_claims_insert_int data "exp" (timegm t) Hd) as Hd'.
  by rewrite (to_intdate_json "iat"), (to_intdate_json "nbf").
Qed.

Lemma validate_claims_sub_exp e exp now :
  validate_claims (<["exp" := VInt exp]> {["sub" := VStr e]}) now =
    if exp <? now then Some ExpiredSignatureError else None.
Proof.
  unfold validate_claims, validate_iat, validate_nbf, validate_exp, validate_aud,
    validate_sub, validate_jti, validate_at_hash.
  rewrite lookup_insert_eq.
  rewrite !lookup_insert_ne, lookup_singleton_eq by done.
  rewrite !lookup_singleton_ne by done. simpl.
  by destruct (exp <? now).
Qed.

Lemma validate_claims_sub c now :
  validate_claims c now = None ->
  c !! "sub" = None \/ exists e, c !! "sub" = Some (VStr e).
Proof.
  unfold validate_claims, validate_sub.
  destruct (validate_iat c), (validate_nbf c now), (validate_exp c now),
    (validate_aud c); simpl; try done.
  destruct (c !! "sub") as [[e|n|t]|]; simpl; try done; eauto.
Qed.

Lemma bits_to_pos_to_bits p : bits_to_pos (pos_to_bits p) = Some p.
Proof. induction p as [p IH|p IH|]; simpl; [| |done]; by rewrite IH. Qed.

Lemma plain_jws_correct key alg : @JwsCorrect plain_jws key alg.
Proof.
  intros c _. simpl. rewrite bits_to_pos_to_bits. simpl.
  rewrite decode_encode. simpl. rewrite decide_True; [done|].
  split; [done | by left].
Qed.
End ClaimFacts.

Section TokenFacts.
Context `{!PwdContext, !Jws, !env_config}.

Lemma jwt_decode_sub token key algs now payload :
  jwt_decode token key algs now = inr payload ->
  payload !! "sub" = None \/ exists e, payload !! "sub" = Some (VStr e).
Proof.
  unfold jwt_decode. destruct (jws_verify token key algs) as [c|]; [|done].
  destruct (validate_claims c now) eqn:Hv; [done|].
  intros [= <-]. by eapply validate_claims_sub.
Qed.

(** The token check never fails on the shape of the subject. *)
Lemma verify_token_total now token :
  verify_token now token = Raise (HTTP credentials_exception) \/
  exists e, verify_token now token = Return e.
Proof.
  unfold verify_token.
  destruct (jwt_decode token SECRET_KEY [ALGORITHM] (timegm now)) as [err|payload] eqn:Hd;
    [by left|].
  destruct (jwt_decode_sub _ _ _ _ _ Hd) as [->|[e ->]]; [by left | right; eauto].
Qed.

Lemma login_for_access_token_found db now u p doc :
  find_one u db = Py_dict doc ->
  verify_password p (hashed_password doc) = true ->
  login_for_access_token db now u p =
    if login_expiry_ok now then
      Return {| access_token :=
                  create_access_token now {["sub" := VStr (email doc)]}
                    (Some (timedelta_minutes ACCESS_TOKEN_EXPIRE_MINUTES));
                token_type := "bearer" |}
    else Raise OverflowError.
Proof.
  intros Hf Hv.
  assert (authenticate_user db u p = Return (Py_dict doc)) as Ha.
  { unfold authenticate_user, get_user. rewrite Hf. simpl. by rewrite Hv. }
  unfold login_for_access_token, login_expiry_ok, timedelta. rewrite Ha.
  cbn [mbind result_bind truthy negb].
  destruct (timedelta_ok (timedelta_minutes ACCESS_TOKEN_EXPIRE_MINUTES));
    cbn [mbind result_bind andb getitem]; [|done].
  unfold create_access_token_result.
  by destruct (datetime_ok
                 (expire now (Some (timedelta_minutes ACCESS_TOKEN_EXPIRE_MINUTES)))).
Qed.

Lemma login_for_access_token_ok db now u p doc :
  find_one u db = Py_dict doc ->
  verify_password p (hashed_password doc) = true ->
  login_expiry_ok now = true ->
  login_for_access_token db now u p =
    Return {| access_token :=
                create_access_token now {["sub" := VStr (email doc)]}
                  (Some (timedelta_minutes ACCESS_TOKEN_EXPIRE_MINUTES));
              token_type := "bearer" |}.
Proof.
  intros Hf Hv Hok. by rewrite (login_for_access_token_found _ _ _ _ _ Hf Hv), Hok.
Qed.

Lemma authenticate_user_cases db e pw :
  match find_one e db with
  | Py_dict doc =>
      authenticate_user db e pw =
        Return (if verify_password pw (hashed_password doc) then Py_dict doc else Py_False)
  | _ => authenticate_user db e pw = Return Py_False
  end.
Proof.
  unfold authenticate_user, get_user.
  destruct (find_one e db) as [| |doc]; simpl; try done.
  by destruct (verify_password pw (hashed_password doc)).
Qed.

Lemma login_for_access_token_inv db now u p tok :
  login_for_access_token db now u p = Return tok ->
  exists doc, find_one u db = Py_dict doc /\
    verify_password p (hashed_password doc) = true /\
    tok = {| access_token :=
               create_access_token now {["sub" := VStr (email doc)]}
                 (Some (timedelta_minutes ACCESS_TOKEN_EXPIRE_MINUTES));
             token_type := "bearer" |}.
Proof.
  intros Hl. pose proof (authenticate_user_cases db u p) as Ha.
  destruct (find_one u db) as [| |doc] eqn:Hf.
  - unfold login_for_access_token in Hl. by rewrite Ha in Hl.
  - unfold login_for_access_token in Hl. by rewrite Ha in Hl.
  - destruct (verify_password p (hashed_password doc)) eqn:Hv.
    + rewrite (login_for_access_token_found _ _ _ _ _ Hf Hv) in Hl.
      destruct (login_expiry_ok now); [|done]. injection Hl as <-. by exists doc.
    + unfold login_for_access_token in Hl. by rewrite Ha in Hl.
Qed.

Context `{!JwsCorrect SECRET_KEY ALGORITHM}.

Lemma jws_verify_minted now data ttl :
  json_claims data ->
  jws_verify (create_access_token now data ttl) SECRET_KEY [ALGORITHM] =
    Some (<["exp" := VInt (timegm (expire now ttl))]> data).
Proof.
  intros Hd. unfold create_access_token, jwt_encode, to_encode.
  rewrite jwt_intdates_exp by done.
  apply jws_verify_sign. by apply json_claims_insert_int.
Qed.

Lemma token_expiry_minted now data ttl :
  json_claims data ->
  token_expiry (create_access_token now data ttl) = Some (timegm (expire now ttl)).
Proof.
  intros Hd. unfold token_expiry. rewrite jws_verify_minted by done. simpl.
  by rewrite lookup_insert_eq.
Qed.

(** A minted token is accepted exactly until the second of its expiry. *)
Lemma verify_token_minted t0 t1 e ttl :
  verify_token t1 (create_access_token t0 {["sub" := VStr e]} ttl) =
    if timegm (expire t0 ttl) <? timegm t1 then Raise (HTTP credentials_exception)
    else Return e.
Proof.
  unfold verify_token, jwt_decode.
  rewrite jws_verify_minted by apply json_claims_sub.
  rewrite validate_claims_sub_exp.
  destruct (timegm (expire t0 ttl) <? timegm t1); [done|].
  by rewrite lookup_insert_ne, lookup_singleton_eq.
Qed.
End TokenFacts.

(** ** Registration *)

(** C2: on any store, [create_user] fails with DuplicateEmail (400) when a
    user with the email exists; otherwise it succeeds and appends exactly one
    record holding the email, the hash of the password and [disabled = false],
    after which a second registration of the same email fails. *)
Theorem create_user_spec `{!PwdContext} (s : salt) (db : collection) (user : UserCreate) :
  ((exists doc, doc ∈ db /\ email doc = UserCreate_email user) ->
     (create_user s db user).1 = Raise (HTTP DuplicateEmail) /\
     response_status (create_user s db user).1 = 400) /\
  ((forall doc, doc ∈ db -> email doc <> UserCreate_email user) ->
     create_user s db user =
       (Return (JObj [("detail", JStr "Registration successful")]),
        db ++ [{| email := UserCreate_email user;
                  hashed_password := get_password_hash s (password user);
                  disabled := false |}]) /\
     length (create_user s db user).2 = S (length db) /\
     forall s' pw',
       (create_user s' (create_user s db user).2
          {| UserCreate_email := UserCreate_email user; password := pw' |}).1
       = Raise (HTTP DuplicateEmail)).
Proof.
  split.
  - intros [doc Hf]%find_one_exists.
    by rewrite (create_user_taken _ _ _ _ Hf).
  - intros Hf%find_one_None. rewrite (create_user_free _ _ _ Hf). simpl.
    split; [done|]. split; [rewrite length_app; simpl; lia|].
    intros s' pw'.
    destruct (find_one_insert_one (UserCreate_email user) db
                {| email := UserCreate_email user;
                   hashed_password := get_password_hash s (password user);
                   disabled := false |} eq_refl) as [doc' Hf'].
    by erewrite create_user_taken.
Qed.

Lemma create_user_spec_witness :
  (@create_user tagged_pwd_context tt [alice]
     {| UserCreate_email := "a@x.com"; password := "pw2" |}).1
    = Raise (HTTP DuplicateEmail) /\
  @create_user tagged_pwd_context tt []
     {| UserCreate_email := "a@x.com"; password := "pw1" |}
    = (Return (JObj [("detail", JStr "Registration successful")]), [alice]).
Proof.
  split.
  - apply (proj1 (@create_user_spec tagged_pwd_context tt [alice]
                    {| UserCreate_email := "a@x.com"; password := "pw2" |})).
    exists alice. split; [left | reflexivity].
  - apply (proj2 (@create_user_spec tagged_pwd_context tt []
                    {| UserCreate_email := "a@x.com"; password := "pw1" |})).
    intros doc Hin. by apply elem_of_nil in Hin.
Defined.

(** C10: when the email is already stored, [create_user] raises
    DuplicateEmail before any insert; whenever it raises, the store it leaves
    is the store it was given. *)
Theorem create_user_failure_atomic `{!PwdContext} (s : salt) (db : collection)
    (user : UserCreate) :
  (exists doc, doc ∈ db /\ email doc = UserCreate_email user) ->
  create_user s db user = (Raise (HTTP DuplicateEmail), db) /\
  forall s' db' user' e,
    (create_user s' db' user').1 = Raise e -> (create_user s' db' user').2 = db'.
Proof.
  intros [doc Hf]%find_one_exists. split.
  - by rewrite (create_user_taken _ _ _ _ Hf).
  - intros s' db' user' e. unfold create_user.
    by destruct (truthy (get_user db' (UserCreate_email user'))).
Qed.

Lemma create_user_failure_atomic_witness :
  @create_user tagged_pwd_context tt [mallory; alice]
     {| UserCreate_email := "a@x.com"; password := "other" |}
    = (Raise (HTTP DuplicateEmail), [mallory; alice]).
Proof.
  apply (@create_user_failure_atomic tagged_pwd_context tt [mallory; alice]
           {| UserCreate_email := "a@x.com"; password := "other" |}).
  exists alice. split; [right; left | reflexivity].
Defined.

(** C9: starting from a store with unique emails, every store reached by
    serving requests one after the other has unique emails: at most one
    record per email.  Only a successful registration changes the store, and
    it inserts an email that the store does not hold. *)
Theorem unique_emails_run `{!PwdContext, !Jws, !env_config}
    (reqs : list (Z * request)) (db : collection) :
  unique_emails db ->
  unique_emails (run reqs db) /\
  (forall e, (records_for e (run reqs db) <= 1)%nat) /\
  (forall now req db',
     (serve now req db').2 = db' \/
     exists s user, req = POST_register s user /\
       find_one (UserCreate_email user) db' = Py_None /\
       (serve now req db').2 =
         insert_one {| email := UserCreate_email user;
                       hashed_password := get_password_hash s (password user);
                       disabled := false |} db').
Proof.
  intros Hu.
  assert (unique_emails (run reqs db)) as Hrun.
  { revert db Hu. induction reqs as [|[now req] reqs IH]; intros db Hu; simpl; [done|].
    apply IH. by apply serve_unique. }
  split; [done|]. split.
  - intros e. by apply records_for_unique.
  - intros now req db'. apply serve_store.
Qed.

Lemma unique_emails_run_witness :
  unique_emails
    (@run tagged_pwd_context plain_jws (test_config 30)
       [(0, @POST_register tagged_pwd_context tt {| UserCreate_email := "a@x.com"; password := "pw1" |});
        (5, @POST_register tagged_pwd_context tt {| UserCreate_email := "a@x.com"; password := "pw2" |});
        (9, @POST_token tagged_pwd_context "a@x.com" "pw1");
        (12, @POST_register tagged_pwd_context tt {| UserCreate_email := "b@x.com"; password := "pw1" |})]
       [mallory]).
Proof.
  apply (@unique_emails_run tagged_pwd_context plain_jws (test_config 30)).
  unfold unique_emails. simpl. apply NoDup_singleton.
Defined.

(** ** Authentication *)

(** C3: [authenticate_user] returns the stored user exactly when the email is
    found and the stored hash verifies the password; an absent email and a
    wrong password both give the same [False], which the login route turns
    into the same InvalidCredentials response (401). *)
Theorem authenticate_user_spec `{!PwdContext, !Jws, !env_config}
    (db : collection) (e pw : string) :
  (forall u, authenticate_user db e pw = Return (Py_dict u) <->
     find_one e db = Py_dict u /\ verify_password pw (hashed_password u) = true) /\
  ((forall doc, doc ∈ db -> email doc <> e) ->
     authenticate_user db e pw = Return Py_False) /\
  (forall u, find_one e db = Py_dict u ->
     verify_password pw (hashed_password u) = false ->
     authenticate_user db e pw = Return Py_False) /\
  (authenticate_user db e pw = Return Py_False ->
     forall now, login_for_access_token db now e pw = Raise (HTTP InvalidCredentials)).
Proof.
  pose proof (authenticate_user_cases db e pw) as Ha.
  split; [|split; [|split]].
  - intros u. split.
    + intros Hu. destruct (find_one e db) as [| |doc]; rewrite Ha in Hu; try done.
      destruct (verify_password pw (hashed_password doc)) eqn:Hv; [|done].
      by injection Hu as ->.
    + intros [Hf Hv]. rewrite Hf in Ha. by rewrite Ha, Hv.
  - intros Hf%find_one_None. by rewrite Hf in Ha.
  - intros u Hf Hv. rewrite Hf in Ha. by rewrite Ha, Hv.
  - intros Hfalse now. unfold login_for_access_token. by rewrite Hfalse.
Qed.

Lemma authenticate_user_spec_witness :
  @authenticate_user tagged_pwd_context [alice] "nobody@x.com" "pw1" = Return Py_False /\
  @authenticate_user tagged_pwd_context [alice] "a@x.com" "wrong" = Return Py_False /\
  @authenticate_user tagged_pwd_context [alice] "a@x.com" "pw1" = Return (Py_dict alice).
Proof.
  split; [|split].
  - apply (@authenticate_user_spec tagged_pwd_context plain_jws (test_config 30)
             [alice] "nobody@x.com" "pw1").
    intros doc [->|Hin]%elem_of_cons; [discriminate | by apply elem_of_nil in Hin].
  - apply (@authenticate_user_spec tagged_pwd_context plain_jws (test_config 30)
             [alice] "a@x.com" "wrong" ) with (u := alice); reflexivity.
  - apply (@authenticate_user_spec tagged_pwd_context plain_jws (test_config 30)
             [alice] "a@x.com" "pw1"). split; reflexivity.
Defined.

(** ** Guards *)

(** C8: [get_current_active_user] raises InactiveUser (400) for a disabled
    user and returns an enabled user unchanged; for an enabled user
    [GET /users/me] answers 200 with exactly [[{"owner": email}]]. *)
Theorem get_current_active_user_spec `{!PwdContext, !Jws, !env_config} (u : UserInDB) :
  get_current_active_user (Py_dict u) =
    (if disabled u then Raise (HTTP InactiveUser) else Return (Py_dict u)) /\
  status_code InactiveUser = 400 /\
  read_own_info (Py_dict u) = Return (JArr [JObj [("owner", JStr (email u))]]) /\
  (forall db now token,
     get_current_user db now token = Return (Py_dict u) ->
     users_me db now token =
       (if disabled u then Raise (HTTP InactiveUser)
        else Return (JArr [JObj [("owner", JStr (email u))]])) /\
     response_status (users_me db now token) = (if disabled u then 400 else 200)).
Proof.
  split; [|split; [done|split; [done|]]].
  - unfold get_current_active_user. simpl. by destruct (disabled u).
  - intros db now token Hu. unfold users_me. rewrite Hu. simpl.
    unfold get_current_active_user. simpl. by destruct (disabled u).
Qed.

Lemma get_current_active_user_spec_witness :
  @users_me plain_jws (test_config 30) [alice] (timedelta_minutes 14)
    (@create_access_token plain_jws (test_config 30) 0 {["sub" := VStr "a@x.com"]} None)
  = Return (JArr [JObj [("owner", JStr "a@x.com")]]).
Proof.
  apply (@get_current_active_user_spec tagged_pwd_context plain_jws (test_config 30) alice).
  unfold get_current_user.
  rewrite (@verify_token_minted plain_jws (test_config 30) (plain_jws_correct _ _)).
  reflexivity.
Defined.

(** ** Minting and checking tokens *)

Lemma timegm_add_minutes t m : timegm (t + timedelta_minutes m) = timegm t + 60 * m.
Proof.
  unfold timegm, timedelta_minutes.
  replace (t + m * 60000000) with (t + (60 * m) * 1000000) by lia.
  by rewrite Z.div_add.
Qed.

(** C4: a token minted for an email and checked no later than the second of
    its expiry is accepted, and the subject it yields is that email. *)
Theorem mint_verify_roundtrip `{!Jws, !env_config, !JwsCorrect SECRET_KEY ALGORITHM}
    (e : string) (ttl : option Z) (t0 t1 : Z) :
  timegm t1 <= timegm (expire t0 ttl) ->
  verify_token t1 (create_access_token t0 {["sub" := VStr e]} ttl) = Return e.
Proof.
  intros Hle. rewrite verify_token_minted.
  destruct (Z.ltb_spec (timegm (expire t0 ttl)) (timegm t1)); [lia | done].
Qed.

Lemma mint_verify_roundtrip_witness :
  @verify_token plain_jws (test_config 30) 1000
    (@create_access_token plain_jws (test_config 30) 0
       {["sub" := VStr "a@x.com"]} (Some (timedelta_minutes 30)))
  = Return "a@x.com".
Proof.
  apply (@mint_verify_roundtrip plain_jws (test_config 30) (plain_jws_correct _ _)).
  vm_compute. discriminate.
Defined.

(** C5: a token minted at [T] with a 15 minute ttl (given or by default)
    passes the token check 14 minutes later and fails it 16 minutes later. *)
Theorem token_expiry_window `{!Jws, !env_config, !JwsCorrect SECRET_KEY ALGORITHM}
    (e : string) (T : Z) (ttl : option Z) :
  ttl = Some (timedelta_minutes 15) \/ ttl = None ->
  let token := create_access_token T {["sub" := VStr e]} ttl in
  verify_token (T + timedelta_minutes 14) token = Return e /\
  verify_token (T + timedelta_minutes 16) token = Raise (HTTP credentials_exception).
Proof.
  intros Httl token. unfold token. rewrite !verify_token_minted.
  assert (expire T ttl = T + timedelta_minutes 15) as -> by (by destruct Httl as [->| ->]).
  rewrite !timegm_add_minutes.
  destruct (Z.ltb_spec (timegm T + 60 * 15) (timegm T + 60 * 14)); [lia|].
  destruct (Z.ltb_spec (timegm T + 60 * 15) (timegm T + 60 * 16)); [done | lia].
Qed.

Lemma token_expiry_window_witness :
  let token := @create_access_token plain_jws (test_config 30) 1700000000123456
                 {["sub" := VStr "a@x.com"]} (Some (timedelta_minutes 15)) in
  @verify_token plain_jws (test_config 30)
    (1700000000123456 + timedelta_minutes 14) token = Return "a@x.com" /\
  @verify_token plain_jws (test_config 30)
    (1700000000123456 + timedelta_minutes 16) token = Raise (HTTP credentials_exception).
Proof.
  apply (@token_expiry_window plain_jws (test_config 30) (plain_jws_correct _ _)).
  left. reflexivity.
Defined.

(** C6: a token whose decoding fails (signature, format, expiry or any other
    [JWTError]) or whose payload has no subject is rejected with the
    credentials exception: 401 with the [WWW-Authenticate: Bearer] header, from
    the token check, from [get_current_user] and from [GET /users/me]. *)
Theorem verify_token_rejects `{!Jws, !env_config} (now : Z) (token : string) :
  (exists err, jwt_decode token SECRET_KEY [ALGORITHM] (timegm now) = inl err) \/
  (exists payload, jwt_decode token SECRET_KEY [ALGORITHM] (timegm now) = inr payload /\
                   payload !! "sub" = None) ->
  verify_token now token = Raise (HTTP credentials_exception) /\
  (forall db, get_current_user db now token = Raise (HTTP credentials_exception) /\
              users_me db now token = Raise (HTTP credentials_exception) /\
              response_status (users_me db now token) = 401) /\
  status_code credentials_exception = 401 /\
  headers credentials_exception = Some [("WWW-Authenticate", "Bearer")].
Proof.
  intros Hfail.
  assert (verify_token now token = Raise (HTTP credentials_exception)) as Hv.
  { unfold verify_token. destruct Hfail as [[err ->]|(payload & -> & ->)]; done. }
  split; [done|]. split; [|done].
  intros db. unfold users_me, get_current_user. by rewrite Hv.
Qed.

Lemma verify_token_rejects_witness :
  @verify_token plain_jws (test_config 30) 0 "not.a.token"
    = Raise (HTTP credentials_exception) /\
  @verify_token plain_jws (test_config 30) 0
    (@jwt_encode plain_jws {["exp" := VInt 900]} "secret" "HS256")
    = Raise (HTTP credentials_exception).
Proof.
  split.
  - apply (@verify_token_rejects plain_jws (test_config 30) 0 "not.a.token").
    left. exists JWTError_invalid. reflexivity.
  - apply (@verify_token_rejects plain_jws (test_config 30) 0).
    right. exists {["exp" := VInt 900]}. unfold jwt_decode, jwt_encode.
    assert (json_claims {["exp" := VInt 900]}) as Hjson
      by apply (json_claims_insert_int ∅ "exp" 900 json_claims_empty).
    rewrite (jwt_intdates_json _ Hjson). cbn [SECRET_KEY ALGORITHM test_config].
    rewrite (plain_jws_correct "secret" "HS256" _ Hjson).
    split; reflexivity.
Defined.

Lemma expire_minutes now m :
  expire now (Some (timedelta_minutes m)) =
    now + timedelta_minutes (if decide (m = 0) then 15 else m).
Proof.
  unfold expire, timedelta_minutes.
  destruct (decide (m = 0)) as [->|Hm]; [done|].
  rewrite decide_False by lia. done.
Qed.

(** Where the expiry is as intended: without a ttl it is 15 minutes after
    the current time (to the microsecond in the claim set, to the second in
    the token), and in the login flow it is the current time plus the
    configured minutes whenever that value is not zero. *)
Lemma create_access_token_expiry
    `{!PwdContext, !Jws, !env_config, !JwsCorrect SECRET_KEY ALGORITHM} :
  (forall now data,
     to_encode now data None !! "exp" = Some (VDatetime (now + timedelta_minutes 15))) /\
  (forall now data, json_claims data ->
     token_expiry (create_access_token now data None)
       = Some (timegm (now + timedelta_minutes 15))) /\
  (forall db now u p tok,
     ACCESS_TOKEN_EXPIRE_MINUTES <> 0 ->
     login_for_access_token db now u p = Return tok ->
     token_expiry (access_token tok) =
       Some (timegm (now + timedelta_minutes ACCESS_TOKEN_EXPIRE_MINUTES))).
Proof.
  split; [|split].
  - intros now data. unfold to_encode. by rewrite lookup_insert_eq.
  - intros now data Hd. by rewrite token_expiry_minted.
  - intros db now u p tok Hm (doc & _ & _ & ->)%login_for_access_token_inv.
    cbn [access_token]. rewrite token_expiry_minted by apply json_claims_sub.
    rewrite expire_minutes. by rewrite decide_False.
Qed.

Lemma create_access_token_expiry_witness :
  @token_expiry plain_jws (test_config 30)
    (@create_access_token plain_jws (test_config 30) 1700000000123456 ∅ None)
  = Some 1700000900.
Proof.
  apply (@create_access_token_expiry tagged_pwd_context plain_jws (test_config 30)
           (plain_jws_correct _ _)).
  apply json_claims_empty.
Defined.

(** C7, what the code does: with zero configured minutes the login route
    hands [timedelta(0)] to [create_access_token], the test [if expires_delta:]
    takes it for a missing ttl, and the token expires 15 minutes after the
    login (second 900 for a login at 0), not at the login time plus the
    configured value. *)
Lemma login_expiry_zero_minutes :
  (fun tok => @token_expiry plain_jws (test_config 0) (access_token tok))
    <$> @login_for_access_token tagged_pwd_context plain_jws (test_config 0)
          [alice] 0 "a@x.com" "pw1"
  = Return (Some 900) /\
  Some 900 <> Some (timegm (0 + timedelta_minutes
                                 (@ACCESS_TOKEN_EXPIRE_MINUTES (test_config 0)))).
Proof.
  split; [|discriminate].
  rewrite (@login_for_access_token_ok tagged_pwd_context plain_jws (test_config 0)
             [alice] 0 "a@x.com" "pw1" alice eq_refl eq_refl eq_refl).
  unfold fmap, result_fmap. cbn [access_token].
  rewrite (@token_expiry_minted plain_jws (test_config 0) (plain_jws_correct _ _))
    by apply json_claims_sub.
  reflexivity.
Qed.

(** ** The user lookup behind the guard *)

(** C1, what the code does: when the token check succeeds with subject [e]
    and no stored user has the email [e], [get_current_user] raises nothing:
    [get_user] answers [False], the test [user is None] does not fire, and
    [False] is returned as the current user.  [GET /users/me] then fails on
    [current_user['disabled']] and answers 500, not 401. *)
Theorem get_current_user_missing_user `{!PwdContext, !Jws, !env_config}
    (db : collection) (now : Z) (token e : string) :
  verify_token now token = Return e ->
  (forall doc, doc ∈ db -> email doc <> e) ->
  get_current_user db now token = Return Py_False /\
  get_current_user db now token <> Raise (HTTP credentials_exception) /\
  users_me db now token = Raise (TypeError "'bool' object is not subscriptable") /\
  response_status (users_me db now token) = 500.
Proof.
  intros Hv Hnone%get_user_False.
  assert (get_current_user db now token = Return Py_False) as Hu.
  { unfold get_current_user. rewrite Hv. simpl. by rewrite Hnone. }
  unfold users_me. by rewrite Hu.
Qed.

Lemma get_current_user_missing_user_witness :
  let token := @create_access_token plain_jws (test_config 30) 0
                 {["sub" := VStr "ghost@x.com"]} None in
  @get_current_user plain_jws (test_config 30) [alice] 60000000 token = Return Py_False /\
  @users_me plain_jws (test_config 30) [alice] 60000000 token
    = Raise (TypeError "'bool' object is not subscriptable").
Proof.
  intros token.
  destruct (@get_current_user_missing_user tagged_pwd_context plain_jws (test_config 30)
              [alice] 60000000 token "ghost@x.com") as (Hu & _ & Hme & _).
  - unfold token.
    rewrite (@verify_token_minted plain_jws (test_config 30) (plain_jws_correct _ _)).
    reflexivity.
  - intros doc [->|Hin]%elem_of_cons; [discriminate | by apply elem_of_nil in Hin].
  - split; assumption.
Defined.

(** ** The service on concrete requests *)

(** Register, log in, read the own record. *)
Example register_login_me :
  let db := (@register tagged_pwd_context tt []
               {| UserCreate_email := "a@x.com"; password := "pw1" |}).2 in
  db = [alice] /\
  (@login_for_access_token tagged_pwd_context plain_jws (test_config 30)
     db 0 "a@x.com" "pw1"
   ≫= fun tok => @users_me plain_jws (test_config 30) db 1000 (access_token tok))
  = Return (JArr [JObj [("owner", JStr "a@x.com")]]).
Proof. vm_compute. done. Qed.

Example check_email_after_register :
  @check_email [alice] "a@x.com" = Raise (HTTP DuplicateEmail) /\
  @check_email [alice] "b@x.com" = Return (JObj [("detail", JStr "E-mail is available")]).
Proof. vm_compute. done. Qed.

Example disabled_user_rejected :
  @users_me plain_jws (test_config 30) [alice; mallory] 1000
    (@create_access_token plain_jws (test_config 30) 0 {["sub" := VStr "m@x.com"]} None)
  = Raise (HTTP InactiveUser).
Proof. vm_compute. done. Qed.

Example expired_token_rejected :
  @users_me plain_jws (test_config 30) [alice] (timedelta_minutes 16)
    (@create_access_token plain_jws (test_config 30) 0 {["sub" := VStr "a@x.com"]} None)
  = Raise (HTTP credentials_exception).
Proof. vm_compute. done. Qed.

Example wrong_secret_rejected :
  @verify_token plain_jws (test_config 30) 0
    (@jwt_encode plain_jws {["sub" := VStr "a@x.com"]} "other secret" "HS256")
  = Raise (HTTP credentials_exception).
Proof. vm_compute. done. Qed.

(** A store that already holds an email twice: [find_one] answers with the
    first record. *)
Example first_record_wins :
  @authenticate_user tagged_pwd_context
    [alice; {| email := "a@x.com"; hashed_password := "h$pw9"; disabled := false |}]
    "a@x.com" "pw9"
  = Return Py_False.
Proof. vm_compute. done. Qed.


(** * Further properties of the handlers *)

(** ** How the store evolves *)

Section StoreEvolution.
Context `{!PwdContext, !Jws, !env_config}.
Implicit Types (db : collection) (doc : UserInDB).

Lemma find_one_app e db db' :
  find_one e (db ++ db') =
    if truthy (find_one e db) then find_one e db else find_one e db'.
Proof.
  induction db as [|d db IH]; simpl; [done|].
  by case_decide.
Qed.

Lemma find_one_prefix e db db' doc :
  db `prefix_of` db' -> find_one e db = Py_dict doc -> find_one e db' = Py_dict doc.
Proof. intros [k ->] Hf. by rewrite find_one_app, Hf. Qed.

Lemma create_user_free_new s db user :
  find_one (UserCreate_email user) db = Py_None ->
  create_user s db user =
    (Return (JObj [("detail", JStr "Registration successful")]),
     db ++ [new_user s user]).
Proof. apply create_user_free. Qed.

Lemma create_user_Return s db user r :
  (create_user s db user).1 = Return r ->
  find_one (UserCreate_email user) db = Py_None /\
  (create_user s db user).2 = db ++ [new_user s user].
Proof.
  destruct (find_one (UserCreate_email user) db) as [| |doc] eqn:Hf.
  - by rewrite (create_user_free_new _ _ _ Hf).
  - by destruct (find_one_not_False (UserCreate_email user) db).
  - by rewrite (create_user_taken _ _ _ _ Hf).
Qed.

Lemma find_one_new_user s db user :
  find_one (UserCreate_email user) db = Py_None ->
  find_one (UserCreate_email user) (db ++ [new_user s user]) = Py_dict (new_user s user).
Proof.
  intros Hf. rewrite find_one_app, Hf. simpl. by rewrite decide_True.
Qed.

Lemma serve_prefix now req db : db `prefix_of` (serve now req db).2.
Proof.
  destruct (serve_store now req db) as [->|(s & user & _ & _ & ->)]; [done|].
  by apply prefix_app_r.
Qed.

Lemma run_prefix reqs db : db `prefix_of` run reqs db.
Proof.
  revert db. induction reqs as [|[now req] reqs IH]; intros db; simpl; [done|].
  etrans; [apply (serve_prefix now req) | apply IH].
Qed.

Lemma run_new_enabled reqs db doc :
  doc ∈ run reqs db -> doc ∈ db \/ disabled doc = false.
Proof.
  revert db. induction reqs as [|[now req] reqs IH]; intros db; simpl; [by left|].
  intros [Hin|Hd]%IH; [|by right].
  destruct (serve_store now req db) as [Heq|(s & user & _ & _ & Heq)];
    rewrite Heq in Hin; [by left|].
  apply elem_of_app in Hin as [Hin|Hin]; [by left|].
  apply list_elem_of_singleton in Hin as ->. by right.
Qed.

End StoreEvolution.

(** ** Availability and registration *)

(** X1: the availability route and the registration route agree on every
    store: [check_email] answers that the email is available exactly when
    [create_user] would succeed for it, and raises the 400 exactly when
    [create_user] would raise it. *)
Theorem check_email_agrees_with_create_user `{!PwdContext}
    (s : salt) (db : collection) (user : UserCreate) :
  (check_email db (UserCreate_email user)
     = Return (JObj [("detail", JStr "E-mail is available")]) <->
   (create_user s db user).1
     = Return (JObj [("detail", JStr "Registration successful")])) /\
  (check_email db (UserCreate_email user) = Raise (HTTP DuplicateEmail) <->
   (create_user s db user).1 = Raise (HTTP DuplicateEmail)).
Proof.
  unfold check_email.
  destruct (find_one (UserCreate_email user) db) as [| |doc] eqn:Hf.
  - rewrite (create_user_free_new _ _ _ Hf). simpl. by split.
  - by destruct (find_one_not_False (UserCreate_email user) db).
  - rewrite (create_user_taken _ _ _ _ Hf). simpl. by split.
Qed.

(** X2: after a successful registration the email is taken: in the store
    that [create_user] leaves, [check_email] raises the 400 for it and
    [get_user] finds the record just inserted. *)
Theorem register_then_lookup `{!PwdContext}
    (s : salt) (db : collection) (user : UserCreate) (r : json) :
  (create_user s db user).1 = Return r ->
  check_email (create_user s db user).2 (UserCreate_email user)
    = Raise (HTTP DuplicateEmail) /\
  get_user (create_user s db user).2 (UserCreate_email user)
    = Py_dict (new_user s user).
Proof.
  intros [Hf ->]%create_user_Return.
  unfold check_email, get_user. by rewrite (find_one_new_user _ _ _ Hf).
Qed.

Lemma register_then_lookup_witness :
  @check_email
    (@create_user tagged_pwd_context tt [mallory]
       {| UserCreate_email := "a@x.com"; password := "pw1" |}).2 "a@x.com"
  = Raise (HTTP DuplicateEmail).
Proof.
  eapply (@register_then_lookup tagged_pwd_context tt [mallory]
            {| UserCreate_email := "a@x.com"; password := "pw1" |}).
  reflexivity.
Defined.




(** X4: registering one email leaves every other email as it was: lookups
    and availability of a different email are the same before and after
    [create_user], whether it succeeds or fails. *)
Theorem create_user_frame `{!PwdContext}
    (s : salt) (db : collection) (user : UserCreate) (e : string) :
  e <> UserCreate_email user ->
  get_user (create_user s db user).2 e = get_user db e /\
  check_email (create_user s db user).2 e = check_email db e.
Proof.
  intros Hne.
  assert (find_one e (create_user s db user).2 = find_one e db) as Hsame.
  { destruct (find_one (UserCreate_email user) db) as [| |doc] eqn:Hf.
    - rewrite (create_user_free_new _ _ _ Hf). simpl. rewrite find_one_app. simpl.
      rewrite decide_False by done.
      pose proof (find_one_not_False e db). by destruct (find_one e db).
    - by destruct (find_one_not_False (UserCreate_email user) db).
    - by rewrite (create_user_taken _ _ _ _ Hf). }
  unfold get_user, check_email. by rewrite Hsame.
Qed.

Lemma create_user_frame_witness :
  @get_user
    (@create_user tagged_pwd_context tt [alice]
       {| UserCreate_email := "b@x.com"; password := "pw2" |}).2 "a@x.com"
  = @get_user [alice] "a@x.com".
Proof.
  apply (@create_user_frame tagged_pwd_context tt [alice]
           {| UserCreate_email := "b@x.com"; password := "pw2" |} "a@x.com").
  discriminate.
Defined.

(** ** The login route *)

(** X5: with a working signing configuration the login route has three
    outcomes.  When the store holds a record under the username whose hash
    verifies the password and the expiry it computes fits, it answers 200
    with a bearer token whose subject is the submitted username.  When the
    credentials do not match it raises InvalidCredentials (401).  When they
    match but the configured minutes do not make a [timedelta], or the sum
    with the current time is not a [datetime], it raises [OverflowError]
    (500). *)
Theorem login_for_access_token_outcomes
    `{!PwdContext, !Jws, !env_config, !JwsCorrect SECRET_KEY ALGORITHM}
    (db : collection) (now : Z) (username pw : string) :
  ((exists doc, find_one username db = Py_dict doc /\
                verify_password pw (hashed_password doc) = true) /\
   login_expiry_ok now = true /\
   login_for_access_token db now username pw =
     Return {| access_token :=
                 create_access_token now {["sub" := VStr username]}
                   (Some (timedelta_minutes ACCESS_TOKEN_EXPIRE_MINUTES));
               token_type := "bearer" |} /\
   response_status (login_for_access_token db now username pw) = 200)
  \/
  ((forall doc, find_one username db = Py_dict doc ->
                verify_password pw (hashed_password doc) = false) /\
   login_for_access_token db now username pw = Raise (HTTP InvalidCredentials) /\
   response_status (login_for_access_token db now username pw) = 401)
  \/
  ((exists doc, find_one username db = Py_dict doc /\
                verify_password pw (hashed_password doc) = true) /\
   login_expiry_ok now = false /\
   login_for_access_token db now username pw = Raise OverflowError /\
   response_status (login_for_access_token db now username pw) = 500).
Proof.
  destruct (find_one username db) as [| |doc] eqn:Hf.
  - right. left. split; [done|].
    unfold login_for_access_token, authenticate_user, get_user. by rewrite Hf.
  - by destruct (find_one_not_False username db).
  - destruct (verify_password pw (hashed_password doc)) eqn:Hv.
    + rewrite (login_for_access_token_found _ _ _ _ _ Hf Hv).
      destruct (find_one_dict _ _ _ Hf) as [_ ->].
      destruct (login_expiry_ok now).
      * left. split; [by exists doc | done].
      * right. right. split; [by exists doc | done].
    + right. left. split; [by intros ? [= <-]|].
      unfold login_for_access_token, authenticate_user, get_user.
      rewrite Hf. simpl. by rewrite Hv.
Qed.

Lemma login_for_access_token_outcomes_witness :
  @login_for_access_token tagged_pwd_context plain_jws (test_config 5000000000)
    [alice] 1700000000000000 "a@x.com" "pw1" = Raise OverflowError /\
  @login_for_access_token tagged_pwd_context plain_jws (test_config 30)
    [alice] 1700000000000000 "a@x.com" "wrong" = Raise (HTTP InvalidCredentials).
Proof.
  split.
  - destruct (@login_for_access_token_outcomes tagged_pwd_context plain_jws
                (test_config 5000000000) (plain_jws_correct _ _)
                [alice] 1700000000000000 "a@x.com" "pw1")
      as [(_ & Hok & _)|[(Hbad & _)|(_ & _ & Hl & _)]].
    + vm_compute in Hok. discriminate.
    + specialize (Hbad alice eq_refl). vm_compute in Hbad. discriminate.
    + exact Hl.
  - destruct (@login_for_access_token_outcomes tagged_pwd_context plain_jws
                (test_config 30) (plain_jws_correct _ _)
                [alice] 1700000000000000 "a@x.com" "wrong")
      as [([doc [Hf Hv]] & _)|[(_ & Hl & _)|([doc [Hf Hv]] & _)]].
    + injection Hf as <-. vm_compute in Hv. discriminate.
    + exact Hl.
    + injection Hf as <-. vm_compute in Hv. discriminate.
Defined.

(** ** Tokens over time *)

Lemma timegm_mono t1 t2 : t1 <= t2 -> timegm t1 <= timegm t2.
Proof. intros Hle. unfold timegm. by apply Z.div_le_mono. Qed.

(** X6: the acceptance window of a minted token is exact: the token check
    yields the subject when the second of the check is at most the second of
    the expiry, and raises the credentials exception otherwise.  So a token
    accepted at some time is accepted at every earlier time, and a token
    rejected for expiry stays rejected. *)
Theorem minted_token_window `{!Jws, !env_config, !JwsCorrect SECRET_KEY ALGORITHM}
    (e : string) (ttl : option Z) (t0 t1 : Z) :
  let token := create_access_token t0 {["sub" := VStr e]} ttl in
  (verify_token t1 token = Return e <-> timegm t1 <= timegm (expire t0 ttl)) /\
  (verify_token t1 token = Raise (HTTP credentials_exception) <->
     timegm (expire t0 ttl) < timegm t1) /\
  (forall t, t <= t1 -> verify_token t1 token = Return e ->
             verify_token t token = Return e) /\
  (forall t, t1 <= t -> verify_token t1 token = Raise (HTTP credentials_exception) ->
             verify_token t token = Raise (HTTP credentials_exception)).
Proof.
  intros token. unfold token.
  assert (forall t, verify_token t (create_access_token t0 {["sub" := VStr e]} ttl) =
                    if timegm (expire t0 ttl) <? timegm t
                    then Raise (HTTP credentials_exception) else Return e) as Hwin
    by (intros t; apply verify_token_minted).
  split; [|split; [|split]].
  - rewrite Hwin. destruct (Z.ltb_spec (timegm (expire t0 ttl)) (timegm t1));
      split; try done; lia.
  - rewrite Hwin. destruct (Z.ltb_spec (timegm (expire t0 ttl)) (timegm t1));
      split; try done; lia.
  - intros t Hle. rewrite !Hwin. pose proof (timegm_mono _ _ Hle).
    destruct (Z.ltb_spec (timegm (expire t0 ttl)) (timegm t1)); [done|].
    destruct (Z.ltb_spec (timegm (expire t0 ttl)) (timegm t)); [lia | done].
  - intros t Hle. rewrite !Hwin. pose proof (timegm_mono _ _ Hle).
    destruct (Z.ltb_spec (timegm (expire t0 ttl)) (timegm t1)); [|done].
    destruct (Z.ltb_spec (timegm (expire t0 ttl)) (timegm t)); [done | lia].
Qed.

Lemma minted_token_window_witness :
  @verify_token plain_jws (test_config 30) (timedelta_minutes 20)
    (@create_access_token plain_jws (test_config 30) 0 {["sub" := VStr "a@x.com"]} None)
  = Raise (HTTP credentials_exception) <-> timegm (@expire 0 None) < timegm (timedelta_minutes 20).
Proof.
  apply (@minted_token_window plain_jws (test_config 30) (plain_jws_correct _ _)
           "a@x.com" None 0 (timedelta_minutes 20)).
Defined.

Lemma json_claims_insert_str (data : gmap string claim) k e :
  json_claims data -> json_claims (<[k := VStr e]> data).
Proof.
  intros Hd k' t. destruct (decide (k = k')) as [->|Hne].
  - by rewrite lookup_insert_eq.
  - by rewrite lookup_insert_ne.
Qed.

(** X7: a minted token carries the claims it was given, with the expiry
    set by [create_access_token]: read back with the server secret, the
    payload is the given mapping with [exp] set to the computed expiry in
    whole seconds.  Whatever the caller put under [exp] is replaced, and every
    other claim reads back unchanged. *)
Theorem create_access_token_payload `{!Jws, !env_config, !JwsCorrect SECRET_KEY ALGORITHM}
    (now : Z) (data : gmap string claim) (ttl : option Z) :
  json_claims data ->
  jws_verify (create_access_token now data ttl) SECRET_KEY [ALGORITHM]
    = Some (<["exp" := VInt (timegm (expire now ttl))]> data) /\
  (jws_verify (create_access_token now data ttl) SECRET_KEY [ALGORITHM]
     ≫= fun payload => payload !! "exp") = Some (VInt (timegm (expire now ttl))) /\
  (forall k, k <> "exp" ->
     (jws_verify (create_access_token now data ttl) SECRET_KEY [ALGORITHM]
        ≫= fun payload => payload !! k) = data !! k).
Proof.
  intros Hd. rewrite (jws_verify_minted _ _ _ Hd). split; [done|]. split.
  - simpl. by rewrite lookup_insert_eq.
  - intros k Hk. simpl. by rewrite lookup_insert_ne.
Qed.

Lemma create_access_token_payload_witness :
  @jws_verify plain_jws
    (@create_access_token plain_jws (test_config 30) 0
       {["sub" := VStr "a@x.com"; "exp" := VInt 5]} None)
    "secret" ["HS256"]
  = Some (<["exp" := VInt 900]> {["sub" := VStr "a@x.com"; "exp" := VInt 5]}).
Proof.
  apply (@create_access_token_payload plain_jws (test_config 30) (plain_jws_correct _ _)).
  apply json_claims_insert_str.
  apply (json_claims_insert_int ∅ "exp" 5 json_claims_empty).
Defined.

(** X8: with a negative number of configured minutes that still fits the
    expiry computation, a login with matching credentials answers with a
    token, but the token is expired from the start: the token check rejects
    it at the time of the login and at every later time. *)
Theorem negative_minutes_token_rejected
    `{!PwdContext, !Jws, !env_config, !JwsCorrect SECRET_KEY ALGORITHM}
    (db : collection) (now : Z) (u p : string) (doc : UserInDB) :
  ACCESS_TOKEN_EXPIRE_MINUTES < 0 ->
  login_expiry_ok now = true ->
  find_one u db = Py_dict doc ->
  verify_password p (hashed_password doc) = true ->
  exists tok,
    login_for_access_token db now u p = Return tok /\
    forall t, now <= t ->
      verify_token t (access_token tok) = Raise (HTTP credentials_exception).
Proof.
  intros Hneg Hok Hf Hv. eexists. split.
  - by apply (login_for_access_token_ok _ _ _ _ _ Hf Hv).
  - intros t Hle. cbn [access_token]. rewrite verify_token_minted, expire_minutes.
    rewrite decide_False by lia. rewrite timegm_add_minutes.
    pose proof (timegm_mono _ _ Hle).
    destruct (Z.ltb_spec (timegm now + 60 * ACCESS_TOKEN_EXPIRE_MINUTES) (timegm t));
      [done | lia].
Qed.

Lemma negative_minutes_token_rejected_witness :
  exists tok,
    @login_for_access_token tagged_pwd_context plain_jws (test_config (-5))
      [alice] 1700000000000000 "a@x.com" "pw1" = Return tok /\
    forall t, 1700000000000000 <= t ->
      @verify_token plain_jws (test_config (-5)) t (access_token tok)
        = Raise (HTTP credentials_exception).
Proof.
  apply (@negative_minutes_token_rejected tagged_pwd_context plain_jws (test_config (-5))
           (plain_jws_correct _ _) [alice] 1700000000000000 "a@x.com" "pw1" alice);
    reflexivity.
Defined.

(** ** Sequences of requests *)

(** X9: served requests only ever append to the store: the store a sequence
    of requests starts from is a prefix of the store it ends with, so no
    record is removed, changed or reordered, and every record that was added
    is enabled. *)
Theorem run_only_appends `{!PwdContext, !Jws, !env_config}
    (reqs : list (Z * request)) (db : collection) :
  db `prefix_of` run reqs db /\
  (length db <= length (run reqs db))%nat /\
  (forall i doc, db !! i = Some doc -> run reqs db !! i = Some doc) /\
  (forall doc, doc ∈ run reqs db -> doc ∈ db \/ disabled doc = false).
Proof.
  pose proof (run_prefix reqs db) as Hpre. split; [done|]. split; [|split].
  - by apply prefix_length.
  - intros i doc Hi. by eapply prefix_lookup_Some.
  - intros doc. apply run_new_enabled.
Qed.

(** X10: a registered user stays registered with the same record: after any
    sequence of requests [get_user] still finds the record it found before,
    and [authenticate_user] gives the same answer for every password.  No
    request replaces a password or re-registers an email. *)
Theorem registered_user_stable `{!PwdContext, !Jws, !env_config}
    (reqs : list (Z * request)) (db : collection) (e : string) (doc : UserInDB) :
  find_one e db = Py_dict doc ->
  get_user (run reqs db) e = Py_dict doc /\
  (forall pw, authenticate_user (run reqs db) e pw = authenticate_user db e pw) /\
  check_email (run reqs db) e = Raise (HTTP DuplicateEmail).
Proof.
  intros Hf.
  pose proof (find_one_prefix e db (run reqs db) doc (run_prefix reqs db) Hf) as Hf'.
  split; [by apply get_user_dict|]. split.
  - intros pw. unfold authenticate_user, get_user. by rewrite Hf, Hf'.
  - unfold check_email. by rewrite Hf'.
Qed.

Lemma registered_user_stable_witness :
  @get_user
    (@run tagged_pwd_context plain_jws (test_config 30)
       [(3, @POST_register tagged_pwd_context tt
              {| UserCreate_email := "a@x.com"; password := "takeover" |});
        (4, @GET_email tagged_pwd_context "a@x.com")]
       [alice])
    "a@x.com"
  = Py_dict alice.
Proof.
  apply (@registered_user_stable tagged_pwd_context plain_jws (test_config 30)).
  reflexivity.
Defined.

(** X11: once the token check has yielded a subject, [GET /users/me] is
    decided by the store alone: a record found under the subject gives 400
    when it is disabled and otherwise 200 with the subject as owner; no
    record gives the [TypeError] of subscripting [False].  When the token
    check raises, the route raises the same exception. *)
Theorem users_me_outcomes `{!PwdContext, !Jws, !env_config}
    (db : collection) (now : Z) (token : string) :
  (forall e, verify_token now token = Return e ->
     users_me db now token =
       match find_one e db with
       | Py_dict doc =>
           if disabled doc then Raise (HTTP InactiveUser)
           else Return (JArr [JObj [("owner", JStr e)]])
       | _ => Raise (TypeError "'bool' object is not subscriptable")
       end) /\
  (forall x, verify_token now token = Raise x -> users_me db now token = Raise x).
Proof.
  split.
  - intros e Hv. unfold users_me, get_current_user, get_user. rewrite Hv. simpl.
    destruct (find_one e db) as [| |doc] eqn:Hf; simpl.
    + reflexivity.
    + reflexivity.
    + destruct (find_one_dict _ _ _ Hf) as [_ <-].
      unfold get_current_active_user. simpl. by destruct (disabled doc).
  - intros x Hv. unfold users_me, get_current_user. by rewrite Hv.
Qed.

(** X12: a token from the login route keeps working for its user: whatever
    requests are served after the login, until the second of its expiry
    [GET /users/me] with that token answers for the user who logged in, with
    the username as owner, or with 400 when the user's record is disabled.
    It never ends in the 500 of a missing user. *)
Theorem login_then_users_me
    `{!PwdContext, !Jws, !env_config, !JwsCorrect SECRET_KEY ALGORITHM}
    (db : collection) (t0 t1 : Z) (u p : string) (tok : Token)
    (reqs : list (Z * request)) :
  login_for_access_token db t0 u p = Return tok ->
  timegm t1 <= timegm (expire t0 (Some (timedelta_minutes ACCESS_TOKEN_EXPIRE_MINUTES))) ->
  exists doc, find_one u db = Py_dict doc /\
    verify_token t1 (access_token tok) = Return u /\
    users_me (run reqs db) t1 (access_token tok) =
      if disabled doc then Raise (HTTP InactiveUser)
      else Return (JArr [JObj [("owner", JStr u)]]).
Proof.
  intros (doc & Hf & _ & ->)%login_for_access_token_inv Hle.
  destruct (find_one_dict _ _ _ Hf) as [_ He]. exists doc. split; [done|].
  cbn [access_token]. rewrite He.
  assert (verify_token t1
            (create_access_token t0 {["sub" := VStr u]}
               (Some (timedelta_minutes ACCESS_TOKEN_EXPIRE_MINUTES))) = Return u) as Hv.
  { rewrite verify_token_minted.
    by destruct (Z.ltb_spec
                   (timegm (expire t0 (Some (timedelta_minutes ACCESS_TOKEN_EXPIRE_MINUTES))))
                   (timegm t1)); [lia|]. }
  split; [done|].
  unfold users_me, get_current_user, get_user. rewrite Hv. simpl.
  rewrite (find_one_prefix u db (run reqs db) doc (run_prefix reqs db) Hf). simpl.
  unfold get_current_active_user. simpl. destruct (disabled doc); [done|].
  simpl. unfold read_own_info. simpl. by rewrite He.
Qed.

Lemma login_then_users_me_witness :
  exists doc, find_one "a@x.com" [mallory; alice] = Py_dict doc /\
    @verify_token plain_jws (test_config 30) (timedelta_minutes 29)
      (@create_access_token plain_jws (test_config 30) 0
         {["sub" := VStr "a@x.com"]} (Some (timedelta_minutes 30))) = Return "a@x.com" /\
    @users_me plain_jws (test_config 30)
      (@run tagged_pwd_context plain_jws (test_config 30)
         [(7, @POST_register tagged_pwd_context tt
                {| UserCreate_email := "b@x.com"; password := "pw2" |})]
         [mallory; alice])
      (timedelta_minutes 29)
      (@create_access_token plain_jws (test_config 30) 0
         {["sub" := VStr "a@x.com"]} (Some (timedelta_minutes 30)))
    = if disabled doc then Raise (HTTP InactiveUser)
      else Return (JArr [JObj [("owner", JStr "a@x.com")]]).
Proof.
  apply (@login_then_users_me tagged_pwd_context plain_jws (test_config 30)
           (plain_jws_correct _ _) [mallory; alice] 0 (timedelta_minutes 29)
           "a@x.com" "pw1"
           {| access_token :=
                @create_access_token plain_jws (test_config 30) 0
                  {["sub" := VStr "a@x.com"]} (Some (timedelta_minutes 30));
              token_type := "bearer" |}).
  - apply (@login_for_access_token_ok tagged_pwd_context plain_jws (test_config 30)
             [mallory; alice] 0 "a@x.com" "pw1" alice); reflexivity.
  - vm_compute. discriminate.
Defined.

(** ** Order of the stored records *)

(** X14: while emails are unique, the answers do not depend on the order in
    which the store returns its records: on any reordering of the store
    [get_user], [check_email] and [authenticate_user] give the same result. *)
Theorem get_user_permutation `{!PwdContext}
    (db db' : collection) (e : string) :
  unique_emails db -> db ≡ₚ db' ->
  get_user db' e = get_user db e /\
  check_email db' e = check_email db e /\
  forall pw, authenticate_user db' e pw = authenticate_user db e pw.
Proof.
  intros Hu Hp.
  assert (unique_emails db') as Hu' by (unfold unique_emails; by rewrite <- Hp).
  assert (find_one e db' = find_one e db) as Hsame.
  { destruct (find_one e db) as [| |doc] eqn:Hf.
    - apply find_one_None. intros doc Hin. rewrite <- Hp in Hin.
      by apply (proj1 (find_one_None e db) Hf).
    - by destruct (find_one_not_False e db).
    - destruct (find_one_dict _ _ _ Hf) as [Hin He].
      apply find_one_unique; [done| |done]. by rewrite <- Hp. }
  unfold authenticate_user, get_user, check_email. by rewrite Hsame.
Qed.

Lemma get_user_permutation_witness :
  @get_user [alice; mallory] "a@x.com" = @get_user [mallory; alice] "a@x.com".
Proof.
  apply (@get_user_permutation tagged_pwd_context [mallory; alice] [alice; mallory]).
  - unfold unique_emails. simpl. apply NoDup_cons_2; [|apply NoDup_singleton].
    intros Hin%list_elem_of_singleton. discriminate.
  - apply perm_swap.
Defined.


(** Minutes beyond what a [datetime] can reach: the login fails after the
    credentials were accepted. *)
Example login_overflow :
  @login_for_access_token tagged_pwd_context plain_jws (test_config 5000000000)
    [alice] 1700000000000000 "a@x.com" "pw1" = Raise OverflowError /\
  @login_for_access_token tagged_pwd_context plain_jws (test_config (-2000000000))
    [alice] 1700000000000000 "a@x.com" "pw1" = Raise OverflowError /\
  @login_for_access_token tagged_pwd_context plain_jws (test_config 1440000000000)
    [alice] 1700000000000000 "a@x.com" "pw1" = Raise OverflowError.
Proof. vm_compute. done. Qed.
